(** * Fireblocks webhook service (main.py): a shallow embedding

    The service has two leaf functions, [send_telegram_message] (the
    Notifier) and [format_transaction_message], and one route handler,
    [fireblocks_webhook].  Strings are byte strings holding the UTF-8
    encoding of the Python text; the process environment and the optional
    [source] / [destination] mappings are finite maps with string keys; the
    logger calls and the outbound HTTP POST are recorded, in order, in a
    trace that the functions thread through an exception-and-state monad. *)

From Stdlib Require Import ZArith Ascii DecimalString.
From stdpp Require Import base option strings gmap list.

Local Open Scope Z_scope.

(** ** Python values and text *)

Module Py.

(** A value found under a key of a parsed JSON object.  The program only
    ever formats such a value inside an f-string, so a float, list or nested
    object is carried by the text [str()] gives for it. *)
Inductive value : Type :=
  | PNone
  | PBool (b : bool)
  | PInt (n : Z)
  | PStr (s : string)
  | POther (text : string).

#[global] Instance value_eq_dec : EqDecision value.
Proof. solve_decision. Defined.

Definition str_int (n : Z) : string := NilZero.string_of_int (Z.to_int n).

(** [str(v)], which is what [f"{v}"] inserts. *)
Definition str (v : value) : string :=
  match v with
  | PNone => "None"
  | PBool true => "True"
  | PBool false => "False"
  | PInt n => str_int n
  | PStr s => s
  | POther text => text
  end.

(** [f"{o}"] for an [Optional[str]]. *)
Definition str_opt (o : option string) : string :=
  match o with Some s => s | None => "None" end.

(** An [Optional[str]] as a JSON value. *)
Definition json_opt (o : option string) : value :=
  match o with Some s => PStr s | None => PNone end.

(** Truth value of an [Optional[str]]: [None] and the empty string are
    falsy. *)
Definition truthy (o : option string) : bool :=
  match o with
  | Some s => bool_decide (s ≠ "")
  | None => false
  end.

(** [o or d] for an [Optional[str]] [o] and a string [d]. *)
Definition or_else (o : option string) (d : string) : string :=
  match o with
  | Some s => if bool_decide (s ≠ "") then s else d
  | None => d
  end.

(** [str.isspace] on the one-byte characters: tab to carriage return, the
    four separators 28 to 31 and the space.  A byte of a longer UTF-8
    sequence is never white space by itself; the template below starts and
    ends, inside its framing newlines, with characters that are not white
    space, so [strip] never looks at a character of more than one byte that
    could be. *)
Definition isspace (c : ascii) : bool :=
  let n := N_of_ascii c in
  ((9 <=? n) && (n <=? 13) || (28 <=? n) && (n <=? 32))%N.

Fixpoint lstrip (s : string) : string :=
  match s with
  | String c r => if isspace c then lstrip r else s
  | EmptyString => EmptyString
  end.

Fixpoint rstrip (s : string) : string :=
  match s with
  | String c r =>
      match rstrip r with
      | EmptyString => if isspace c then EmptyString else String c EmptyString
      | r' => String c r'
      end
  | EmptyString => EmptyString
  end.

(** [s.strip()] *)
Definition strip (s : string) : string := rstrip (lstrip s).

Definition utf8 (bytes : list N) : string :=
  foldr (fun b s => String (ascii_of_N b) s) EmptyString bytes.

Definition nl : string := utf8 [10%N].

End Py.

Import Py.

(** ** Data model *)

(** [class FireblocksWebhook(BaseModel)] *)
Record FireblocksWebhook : Type := {
  id : string;
  source : option (gmap string value);
  destination : option (gmap string value);
  amount : option string;
  assetId : option string;
  createdAt : option string;
  event : option string
}.

(** A JSON object returned by a route or posted to the provider. *)
Abbreviation json := (list (string * value)).

(** What [requests.post] comes back with: a response, or a transport fault
    raised as an exception whose [str()] is [description]. *)
Record Response : Type := { status_code : Z; text : string }.

Inductive outcome : Type :=
  | Responded (r : Response)
  | Faulted (description : string).

Inductive exn : Type :=
  | HTTPException (status : Z) (detail : string)
  | RequestException (description : string).

(** Observable actions, in the order they happen. *)
Inductive effect : Type :=
  | LogInfo (msg : string)
  | LogError (msg : string)
  | HttpPost (url : string) (body : json).

Abbreviation trace := (list effect).

Definition is_post (e : effect) : bool :=
  match e with HttpPost _ _ => true | _ => false end.

(** Number of outbound HTTP requests recorded in a trace. *)
Definition outbound_calls (tr : trace) : nat := length (filter is_post tr).

(** ** The monad of the handlers: a trace and Python exceptions *)

Inductive res (A : Type) : Type :=
  | Ret (a : A)
  | Raise (e : exn).
Arguments Ret {A} a.
Arguments Raise {A} e.

Definition M (A : Type) : Type := trace -> res A * trace.

Definition ret {A} (a : A) : M A := fun tr => (Ret a, tr).

Definition raise {A} (e : exn) : M A := fun tr => (Raise e, tr).

Definition bind {A B} (m : M A) (k : A -> M B) : M B :=
  fun tr =>
    match m tr with
    | (Ret a, tr') => k a tr'
    | (Raise e, tr') => (Raise e, tr')
    end.

(** [try: body  except Exception as e: handler e] *)
Definition try_except {A} (body : M A) (handler : exn -> M A) : M A :=
  fun tr =>
    match body tr with
    | (Ret a, tr') => (Ret a, tr')
    | (Raise e, tr') => handler e tr'
    end.

Definition emit (e : effect) : M unit := fun tr => (Ret tt, tr ++ [e]).

Declare Scope py_scope.
Delimit Scope py_scope with py.
Notation "x <- m ;; k" := (bind m (fun x => k))
  (at level 100, m at next level, right associativity) : py_scope.
Notation "m ;; k" := (bind m (fun _ => k))
  (at level 100, right associativity) : py_scope.
Local Open Scope py_scope.

Definition logger_info (msg : string) : M unit := emit (LogInfo msg).
Definition logger_error (msg : string) : M unit := emit (LogError msg).

(** ** The program *)

Section Service.

(** [os.environ], read through [os.getenv]. *)
Variable environ : gmap string string.

(** The messaging provider and the network in front of it: what
    [requests.post(url, json=body)] comes back with. *)
Variable provider : string -> json -> outcome.

(** [str(e)] of the framework's [HTTPException], which the framework and
    not this repository defines. *)
Variable http_exception_str : Z -> string -> string.

Definition os_getenv (key : string) : option string := environ !! key.

Definition str_exn (e : exn) : string :=
  match e with
  | HTTPException status detail => http_exception_str status detail
  | RequestException description => description
  end.

Definition requests_post (url : string) (body : json) : M Response :=
  emit (HttpPost url body) ;;
  match provider url body with
  | Responded r => ret r
  | Faulted description => raise (RequestException description)
  end.

Definition send_telegram_message (message : string) : M bool :=
  let bot_token := os_getenv "TELEGRAM_BOT_TOKEN" in
  let chat_id := os_getenv "TELEGRAM_CHAT_ID" in
  if negb (truthy bot_token) || negb (truthy chat_id) then
    logger_error "Missing Telegram bot token or chat ID in environment variables" ;;
    ret false
  else
    let url :=
      "https://api.telegram.org/bot" +:+ str_opt bot_token +:+ "/sendMessage" in
    try_except
      (response <- requests_post url
         [("chat_id", json_opt chat_id);
          ("text", PStr message);
          ("parse_mode", PStr "HTML")] ;;
       if status_code response =? 200 then
         logger_info "Telegram message sent successfully" ;;
         ret true
       else
         logger_error ("Failed to send Telegram message: "
                       +:+ str_int (status_code response) +:+ " - "
                       +:+ text response) ;;
         ret false)
      (fun e =>
         logger_error ("Error sending Telegram message: " +:+ str_exn e) ;;
         ret false).

(** [d.get('id', 'N/A') if d else 'N/A'] for an optional mapping [d]: an
    absent and an empty mapping are both falsy. *)
Definition endpoint_text (d : option (gmap string value)) : string :=
  match d with
  | Some m =>
      if bool_decide (m ≠ ∅) then
        str (default (PStr "N/A") (m !! "id"))
      else "N/A"
  | None => "N/A"
  end.

(** U+FFFD, as it stands twice at the head of the first and of the
    destination line of the template in the source file. *)
Definition replacement : string := utf8 [239; 191; 189]%N.
Definition clipboard : string := utf8 [240; 159; 147; 139]%N.
Definition money_bag : string := utf8 [240; 159; 146; 176]%N.
Definition calendar : string := utf8 [240; 159; 147; 133]%N.
Definition round_pin : string := utf8 [240; 159; 147; 141]%N.

Definition format_transaction_message (webhook_data : FireblocksWebhook) : string :=
  let message :=
    nl +:+ replacement +:+ replacement +:+ " <b>New Transaction Created</b>" +:+ nl
    +:+ nl
    +:+ clipboard +:+ " <b>Transaction ID:</b> <code>" +:+ id webhook_data
        +:+ "</code>" +:+ nl
    +:+ money_bag +:+ " <b>Amount:</b> " +:+ or_else (amount webhook_data) "N/A"
        +:+ " " +:+ or_else (assetId webhook_data) "N/A" +:+ nl
    +:+ calendar +:+ " <b>Created:</b> " +:+ or_else (createdAt webhook_data) "N/A"
        +:+ nl
    +:+ nl
    +:+ round_pin +:+ " <b>Source:</b> " +:+ endpoint_text (source webhook_data)
        +:+ nl
    +:+ replacement +:+ replacement +:+ " <b>Destination:</b> "
        +:+ endpoint_text (destination webhook_data) +:+ nl
    +:+ nl
    +:+ "#Fireblocks #Transaction" +:+ nl in
  strip message.

Definition fireblocks_webhook (webhook_data : FireblocksWebhook) : M json :=
  try_except
    (logger_info ("Received webhook for transaction: " +:+ id webhook_data) ;;
     if bool_decide (event webhook_data ≠ Some "TRANSACTION_CREATED") then
       logger_info ("Ignoring event type: " +:+ str_opt (event webhook_data)) ;;
       ret [("message", PStr "Event ignored");
            ("event", json_opt (event webhook_data))]
     else
       let message := format_transaction_message webhook_data in
       success <- send_telegram_message message ;;
       if success : bool then
         logger_info ("Successfully processed webhook for transaction: "
                      +:+ id webhook_data) ;;
         ret [("message", PStr "Webhook processed successfully");
              ("transaction_id", PStr (id webhook_data))]
       else
         logger_error ("Failed to send Telegram message for transaction: "
                       +:+ id webhook_data) ;;
         raise (HTTPException 500 "Failed to send Telegram notification"))
    (fun e =>
       logger_error ("Error processing webhook: " +:+ str_exn e) ;;
       raise (HTTPException 500 ("Internal server error: " +:+ str_exn e))).

(** What the caller of [POST /fireblocks-webhook] receives: the framework
    serialises a returned object with status 200 and an [HTTPException]
    with its own status and detail; any other exception reaching it
    becomes its plain 500. *)
Inductive http_response : Type :=
  | JSONResponse (status : Z) (body : json)
  | ErrorResponse (status : Z) (detail : string).

Definition respond (r : res json) : http_response :=
  match r with
  | Ret body => JSONResponse 200 body
  | Raise (HTTPException status detail) => ErrorResponse status detail
  | Raise (RequestException _) => ErrorResponse 500 "Internal Server Error"
  end.

(** One request, served from an empty trace. Returns the response and
    everything that was logged or sent meanwhile. *)
Definition post_fireblocks_webhook (webhook_data : FireblocksWebhook)
  : http_response * trace :=
  let '(r, tr) := fireblocks_webhook webhook_data [] in (respond r, tr).

(** ** Vocabulary of the statements *)

(** Both configuration values are set and non-empty. *)
Definition configured : bool :=
  truthy (os_getenv "TELEGRAM_BOT_TOKEN") && truthy (os_getenv "TELEGRAM_CHAT_ID").

(** The request [send_telegram_message] puts on the wire. *)
Definition sendMessage_url : string :=
  "https://api.telegram.org/bot" +:+ str_opt (os_getenv "TELEGRAM_BOT_TOKEN")
  +:+ "/sendMessage".

Definition sendMessage_body (message : string) : json :=
  [("chat_id", json_opt (os_getenv "TELEGRAM_CHAT_ID"));
   ("text", PStr message);
   ("parse_mode", PStr "HTML")].

(** The message as a form with six slots: transaction id, amount, asset,
    creation time, source and destination. *)
Definition message_layout (tx amt asset created src dst : string) : string :=
  replacement +:+ replacement +:+ " <b>New Transaction Created</b>" +:+ nl
  +:+ nl
  +:+ clipboard +:+ " <b>Transaction ID:</b> <code>" +:+ tx +:+ "</code>" +:+ nl
  +:+ money_bag +:+ " <b>Amount:</b> " +:+ amt +:+ " " +:+ asset +:+ nl
  +:+ calendar +:+ " <b>Created:</b> " +:+ created +:+ nl
  +:+ nl
  +:+ round_pin +:+ " <b>Source:</b> " +:+ src +:+ nl
  +:+ replacement +:+ replacement +:+ " <b>Destination:</b> " +:+ dst +:+ nl
  +:+ nl
  +:+ "#Fireblocks #Transaction".

(** The five slots a field of the event fills, as the template computes
    them. *)
Definition amount_slot (w : FireblocksWebhook) : string :=
  or_else (amount w) "N/A".
Definition asset_slot (w : FireblocksWebhook) : string :=
  or_else (assetId w) "N/A".
Definition created_slot (w : FireblocksWebhook) : string :=
  or_else (createdAt w) "N/A".
Definition source_slot (w : FireblocksWebhook) : string :=
  endpoint_text (source w).
Definition destination_slot (w : FireblocksWebhook) : string :=
  endpoint_text (destination w).

(** The event with one field replaced; [None] takes the field away. *)
Definition with_amount (a : option string) (w : FireblocksWebhook)
  : FireblocksWebhook :=
  {| id := id w; source := source w; destination := destination w;
     amount := a; assetId := assetId w; createdAt := createdAt w;
     event := event w |}.

Definition with_assetId (a : option string) (w : FireblocksWebhook)
  : FireblocksWebhook :=
  {| id := id w; source := source w; destination := destination w;
     amount := amount w; assetId := a; createdAt := createdAt w;
     event := event w |}.

Definition with_createdAt (c : option string) (w : FireblocksWebhook)
  : FireblocksWebhook :=
  {| id := id w; source := source w; destination := destination w;
     amount := amount w; assetId := assetId w; createdAt := c;
     event := event w |}.

Definition with_source (d : option (gmap string value)) (w : FireblocksWebhook)
  : FireblocksWebhook :=
  {| id := id w; source := d; destination := destination w;
     amount := amount w; assetId := assetId w; createdAt := createdAt w;
     event := event w |}.

Definition with_destination (d : option (gmap string value)) (w : FireblocksWebhook)
  : FireblocksWebhook :=
  {| id := id w; source := source w; destination := d;
     amount := amount w; assetId := assetId w; createdAt := createdAt w;
     event := event w |}.

(** Lines written through [logger.error], and lines written at all. *)
Definition is_error_log (e : effect) : bool :=
  match e with LogError _ => true | _ => false end.

Definition is_log (e : effect) : bool :=
  match e with LogInfo _ | LogError _ => true | HttpPost _ _ => false end.

(** The three answers the route has: the two acknowledgments it returns and
    the error its [except] clause raises after a failed notification. *)
Definition ignored_ack (w : FireblocksWebhook) : http_response :=
  JSONResponse 200
    [("message", PStr "Event ignored"); ("event", json_opt (event w))].

Definition processed_ack (w : FireblocksWebhook) : http_response :=
  JSONResponse 200
    [("message", PStr "Webhook processed successfully");
     ("transaction_id", PStr (id w))].

Definition internal_error : http_response :=
  ErrorResponse 500
    ("Internal server error: "
     +:+ str_exn (HTTPException 500 "Failed to send Telegram notification")).

(** ** Sample inputs *)

Definition TRANSACTION_CREATED : string := "TRANSACTION_CREATED".

(** An environment holding both configuration values. *)
Definition env_ok : gmap string string :=
  <["TELEGRAM_BOT_TOKEN" := "123:abc"]> (<["TELEGRAM_CHAT_ID" := "42"]> ∅).

(** An environment holding neither of them. *)
Definition env_unset : gmap string string := ∅.

(** An environment whose bot token is set, but to the empty string. *)
Definition env_blank_token : gmap string string :=
  <["TELEGRAM_BOT_TOKEN" := ""]> (<["TELEGRAM_CHAT_ID" := "42"]> ∅).

(** A provider that answers every request with the given status. *)
Definition answers (status : Z) : string -> json -> outcome :=
  fun _ _ => Responded {| status_code := status; text := "" |}.

(** A network on which every request fails before a response arrives. *)
Definition unreachable : string -> json -> outcome :=
  fun _ _ => Faulted "connection refused".

(** [HTTPException.__str__] as current releases of the framework have it. *)
Definition status_colon_detail (status : Z) (detail : string) : string :=
  str_int status +:+ ": " +:+ detail.

(** [{"id":"tx1","event":"TRANSACTION_CREATED","amount":"10","assetId":"BTC"}] *)
Definition tx1 : FireblocksWebhook :=
  {| id := "tx1"; source := None; destination := None;
     amount := Some "10"; assetId := Some "BTC"; createdAt := None;
     event := Some "TRANSACTION_CREATED" |}.

(** [{"id":"tx2","event":"TRANSACTION_PENDING"}] *)
Definition tx2 : FireblocksWebhook :=
  {| id := "tx2"; source := None; destination := None;
     amount := None; assetId := None; createdAt := None;
     event := Some "TRANSACTION_PENDING" |}.

(** [{"id":"tx3"}]: no event field at all. *)
Definition tx3 : FireblocksWebhook :=
  {| id := "tx3"; source := None; destination := None;
     amount := None; assetId := None; createdAt := None;
     event := None |}.

(** [{"id":"tx4","event":"TRANSACTION_CREATED","source":{"id":null},
      "destination":{"id":"N/A"},"amount":"","assetId":"","createdAt":""}] *)
Definition tx4 : FireblocksWebhook :=
  {| id := "tx4";
     source := Some {[ "id" := PNone ]};
     destination := Some {[ "id" := PStr "N/A" ]};
     amount := Some ""; assetId := Some ""; createdAt := Some "";
     event := Some "TRANSACTION_CREATED" |}.

(** [{"id":"tx5","source":{"type":"VAULT"},"destination":{"type":"VAULT"}}] *)
Definition tx5 : FireblocksWebhook :=
  {| id := "tx5";
     source := Some {[ "type" := PStr "VAULT" ]};
     destination := Some {[ "type" := PStr "VAULT" ]};
     amount := None; assetId := None; createdAt := None;
     event := None |}.

(** ** Strings *)

Lemma app_cons (c : ascii) (s t : string) :
  String c s +:+ t = String c (s +:+ t).
Proof. reflexivity. Qed.

Lemma app_inv_head (s t u : string) : s +:+ t = s +:+ u -> t = u.
Proof.
  induction s as [|c s IH]; [exact (fun H => H)|].
  rewrite !app_cons. intros H. apply IH. congruence.
Qed.

Lemma app_nonempty_r (s t : string) : t <> "" -> s +:+ t <> "".
Proof. destruct s; [exact (fun H => H)|]. rewrite app_cons. discriminate. Qed.

Lemma rstrip_app_keep (s t : string) :
  rstrip t <> "" -> rstrip (s +:+ t) = s +:+ rstrip t.
Proof.
  intros Ht. induction s as [|c s IH]; [reflexivity|].
  rewrite !app_cons. cbn [rstrip]. rewrite IH.
  destruct (s +:+ rstrip t) eqn:E; [|reflexivity].
  exfalso. revert E. by apply app_nonempty_r.
Qed.

Lemma rstrip_app_nonempty (s t : string) :
  rstrip t <> "" -> rstrip (s +:+ t) <> "".
Proof. intros Ht. rewrite rstrip_app_keep by done. by apply app_nonempty_r. Qed.

Lemma rstrip_tail_nonempty : rstrip ("#Fireblocks #Transaction" +:+ nl) <> "".
Proof. vm_compute. discriminate. Qed.

Ltac keep_tail :=
  first [ exact rstrip_tail_nonempty | apply rstrip_app_nonempty; keep_tail ].

(** [strip] takes exactly the two framing newlines off the template,
    whatever the fields hold. *)
Lemma format_transaction_message_layout (w : FireblocksWebhook) :
  format_transaction_message w =
  message_layout (id w) (amount_slot w) (asset_slot w) (created_slot w)
    (source_slot w) (destination_slot w).
Proof.
  unfold format_transaction_message, message_layout, strip.
  unfold amount_slot, asset_slot, created_slot, source_slot, destination_slot.
  change (lstrip (nl +:+ replacement +:+ ?r)) with (replacement +:+ r).
  repeat (rewrite rstrip_app_keep; [|keep_tail]).
  reflexivity.
Qed.

Lemma or_else_None (d : string) : or_else None d = d.
Proof. reflexivity. Qed.

Lemma or_else_empty (d : string) : or_else (Some "") d = d.
Proof. reflexivity. Qed.

Lemma endpoint_text_lookup (m : gmap string value) (v : value) :
  m !! "id" = Some v -> endpoint_text (Some m) = str v.
Proof.
  intros H. unfold endpoint_text. rewrite H.
  rewrite bool_decide_eq_true_2; [reflexivity|].
  intros ->. by rewrite lookup_empty in H.
Qed.

Lemma endpoint_text_no_id (m : gmap string value) :
  m !! "id" = None -> endpoint_text (Some m) = "N/A".
Proof.
  intros H. unfold endpoint_text. rewrite H. by case_bool_decide.
Qed.

(** ** Running the notifier *)

Lemma outbound_calls_app (tr1 tr2 : trace) :
  outbound_calls (tr1 ++ tr2) = (outbound_calls tr1 + outbound_calls tr2)%nat.
Proof. unfold outbound_calls. by rewrite filter_app, length_app. Qed.

Lemma send_unconfigured (message : string) (tr : trace) :
  configured = false ->
  send_telegram_message message tr =
  (Ret false,
   tr ++ [LogError "Missing Telegram bot token or chat ID in environment variables"]).
Proof.
  unfold configured, send_telegram_message. intros H.
  apply andb_false_iff in H as [-> | ->]; [reflexivity|].
  by rewrite orb_true_r.
Qed.

Lemma send_configured (message : string) (tr : trace) :
  configured = true ->
  send_telegram_message message tr =
  let post := HttpPost sendMessage_url (sendMessage_body message) in
  match provider sendMessage_url (sendMessage_body message) with
  | Responded r =>
      if status_code r =? 200 then
        (Ret true, tr ++ [post; LogInfo "Telegram message sent successfully"])
      else
        (Ret false,
         tr ++ [post;
                LogError ("Failed to send Telegram message: "
                          +:+ str_int (status_code r) +:+ " - " +:+ text r)])
  | Faulted d =>
      (Ret false,
       tr ++ [post; LogError ("Error sending Telegram message: " +:+ d)])
  end.
Proof.
  unfold configured, send_telegram_message. intros H.
  apply andb_true_iff in H as [-> ->]. cbn [negb orb].
  unfold try_except, bind, requests_post, logger_info, logger_error, emit, ret, raise.
  fold sendMessage_url. fold (sendMessage_body message).
  destruct (provider _ _) as [r|d]; cbn.
  - destruct (status_code r =? 200); by rewrite <- app_assoc.
  - by rewrite <- app_assoc.
Qed.

(** The notifier only ever appends to the trace, and what it answers does
    not depend on what was recorded before. *)
Lemma send_frame (message : string) (tr : trace) :
  send_telegram_message message tr =
  (fst (send_telegram_message message []),
   tr ++ snd (send_telegram_message message [])).
Proof.
  destruct configured eqn:Hc.
  - rewrite (send_configured _ tr Hc), (send_configured _ [] Hc). cbn zeta.
    destruct (provider _ _) as [r|d]; [destruct (status_code r =? 200)|];
      reflexivity.
  - by rewrite (send_unconfigured _ tr Hc), (send_unconfigured _ [] Hc).
Qed.

(** The notifier never lets an exception out. *)
Lemma send_returns (message : string) (tr : trace) :
  exists b : bool, fst (send_telegram_message message tr) = Ret b.
Proof.
  destruct configured eqn:Hc.
  - rewrite (send_configured _ tr Hc). cbn zeta.
    destruct (provider _ _) as [r|d]; [destruct (status_code r =? 200)|];
      eauto.
  - rewrite (send_unconfigured _ tr Hc). eauto.
Qed.

(** Outbound requests of one invocation of the notifier. *)
Lemma send_posts (message : string) :
  filter is_post (snd (send_telegram_message message [])) =
  if configured then [HttpPost sendMessage_url (sendMessage_body message)] else [].
Proof.
  destruct configured eqn:Hc.
  - rewrite (send_configured _ [] Hc). cbn zeta.
    destruct (provider _ _) as [r|d]; [destruct (status_code r =? 200)|];
      reflexivity.
  - by rewrite (send_unconfigured _ [] Hc).
Qed.

(** ** Running the handler *)

Lemma webhook_other_event (w : FireblocksWebhook) (tr : trace) :
  event w <> Some TRANSACTION_CREATED ->
  fireblocks_webhook w tr =
  (Ret [("message", PStr "Event ignored"); ("event", json_opt (event w))],
   tr ++ [LogInfo ("Received webhook for transaction: " +:+ id w);
          LogInfo ("Ignoring event type: " +:+ str_opt (event w))]).
Proof.
  intros H. unfold fireblocks_webhook, try_except, bind, logger_info, emit, ret.
  rewrite bool_decide_eq_true_2 by exact H.
  by rewrite <- app_assoc.
Qed.

Lemma webhook_created (w : FireblocksWebhook) (tr : trace) :
  event w = Some TRANSACTION_CREATED ->
  fireblocks_webhook w tr =
  let sent := send_telegram_message (format_transaction_message w) [] in
  let tr' := tr ++ LogInfo ("Received webhook for transaction: " +:+ id w)
                :: snd sent in
  match fst sent with
  | Ret true =>
      (Ret [("message", PStr "Webhook processed successfully");
            ("transaction_id", PStr (id w))],
       tr' ++ [LogInfo ("Successfully processed webhook for transaction: "
                        +:+ id w)])
  | Ret false =>
      let e := HTTPException 500 "Failed to send Telegram notification" in
      (Raise (HTTPException 500 ("Internal server error: " +:+ str_exn e)),
       tr' ++ [LogError ("Failed to send Telegram message for transaction: "
                         +:+ id w);
               LogError ("Error processing webhook: " +:+ str_exn e)])
  | Raise e =>
      (Raise (HTTPException 500 ("Internal server error: " +:+ str_exn e)),
       tr' ++ [LogError ("Error processing webhook: " +:+ str_exn e)])
  end.
Proof.
  intros H. cbn zeta.
  unfold fireblocks_webhook, try_except, bind, logger_info, logger_error,
    emit, ret, raise.
  rewrite bool_decide_eq_false_2 by (rewrite H; intros Hne; by apply Hne).
  rewrite send_frame.
  destruct (fst (send_telegram_message _ [])) as [[|]|e];
    rewrite <- ?app_assoc; reflexivity.
Qed.

Lemma post_created_calls (w : FireblocksWebhook) :
  event w = Some TRANSACTION_CREATED ->
  filter is_post (snd (post_fireblocks_webhook w)) =
  filter is_post (snd (send_telegram_message (format_transaction_message w) [])).
Proof.
  intros H. unfold post_fireblocks_webhook.
  rewrite (webhook_created w [] H). cbn zeta.
  destruct (fst (send_telegram_message _ [])) as [[|]|e]; cbn [snd];
    rewrite filter_app, filter_cons_False by (cbn; tauto);
    cbn; by rewrite app_nil_r.
Qed.

Lemma configured_absent :
  os_getenv "TELEGRAM_BOT_TOKEN" = None \/ os_getenv "TELEGRAM_CHAT_ID" = None ->
  configured = false.
Proof.
  unfold configured. intros [-> | ->]; [reflexivity|]. apply andb_false_r.
Qed.

Lemma internal_error_detail_differs (s : string) :
  "Internal server error: " +:+ s <> "Failed to send Telegram notification".
Proof. rewrite app_cons. discriminate. Qed.

(** ** The notifier *)

(** C1, as amended: with both configuration values in place, the notifier
    returns true exactly for a response whose status is 200; for every other
    status, the rest of the 200 range included, and for every transport
    fault it returns false. *)
Theorem send_telegram_message_true_iff_200 (message : string) (tr : trace) :
  configured = true ->
  (forall r : Response,
     provider sendMessage_url (sendMessage_body message) = Responded r ->
     fst (send_telegram_message message tr) = Ret (status_code r =? 200))
  /\ (forall d : string,
        provider sendMessage_url (sendMessage_body message) = Faulted d ->
        fst (send_telegram_message message tr) = Ret false).
Proof.
  intros Hc. rewrite (send_configured _ _ Hc). cbn zeta.
  split; [intros r ->|intros d ->]; [|reflexivity].
  by destruct (status_code r =? 200).
Qed.

(** C5: when either configuration value is absent, the notifier returns
    false having only logged the fact, so no request leaves the process; a
    TRANSACTION_CREATED request is then answered with status 500 and the
    trace of the whole request holds no outbound call. *)
Theorem missing_config_fails_without_network :
  os_getenv "TELEGRAM_BOT_TOKEN" = None \/ os_getenv "TELEGRAM_CHAT_ID" = None ->
  (forall (message : string) (tr : trace),
     send_telegram_message message tr =
     (Ret false,
      tr ++ [LogError "Missing Telegram bot token or chat ID in environment variables"])
     /\ outbound_calls (snd (send_telegram_message message tr)) = outbound_calls tr)
  /\ (forall w : FireblocksWebhook,
        event w = Some TRANSACTION_CREATED ->
        (exists detail : string,
           fst (post_fireblocks_webhook w) = ErrorResponse 500 detail)
        /\ outbound_calls (snd (post_fireblocks_webhook w)) = 0%nat).
Proof.
  intros Habs. pose proof (configured_absent Habs) as Hc. split.
  - intros message tr. rewrite (send_unconfigured _ _ Hc). split; [reflexivity|].
    cbn [snd]. rewrite outbound_calls_app. exact (Nat.add_0_r _).
  - intros w Hev. split.
    + unfold post_fireblocks_webhook. rewrite (webhook_created w [] Hev).
      cbn zeta. rewrite (send_unconfigured _ [] Hc). cbn. eauto.
    + unfold outbound_calls. rewrite (post_created_calls w Hev), send_posts.
      by rewrite Hc.
Qed.

(** ** The webhook receiver *)

(** C2, on the code: when the notifier reports failure for a
    TRANSACTION_CREATED request, the exception carrying the delivery-failure
    detail is caught by the handler's own [except Exception] clause, so the
    caller receives status 500 with the generic internal-error detail, which
    is never the delivery-failure detail. *)
Theorem delivery_failure_is_rewrapped (w : FireblocksWebhook) :
  event w = Some TRANSACTION_CREATED ->
  fst (send_telegram_message (format_transaction_message w) []) = Ret false ->
  fst (post_fireblocks_webhook w) =
    ErrorResponse 500
      ("Internal server error: "
       +:+ http_exception_str 500 "Failed to send Telegram notification")
  /\ fst (post_fireblocks_webhook w) <>
     ErrorResponse 500 "Failed to send Telegram notification".
Proof.
  intros Hev Hfail. unfold post_fireblocks_webhook.
  rewrite (webhook_created w [] Hev). cbn zeta. rewrite Hfail. cbn.
  split; [reflexivity|].
  intros H. apply (internal_error_detail_differs
    (http_exception_str 500 "Failed to send Telegram notification")).
  congruence.
Qed.

(** C3: a request whose event is anything but "TRANSACTION_CREATED", the
    absent event included, is answered 200 with the "Event ignored"
    acknowledgment carrying the received event (null when absent); the
    handler does nothing but write its two log lines, whatever the
    environment and the provider are, so the notifier is not run and no
    outbound call is made. *)
Theorem other_events_are_ignored (w : FireblocksWebhook) :
  event w <> Some TRANSACTION_CREATED ->
  post_fireblocks_webhook w =
    (JSONResponse 200
       [("message", PStr "Event ignored"); ("event", json_opt (event w))],
     [LogInfo ("Received webhook for transaction: " +:+ id w);
      LogInfo ("Ignoring event type: " +:+ str_opt (event w))])
  /\ outbound_calls (snd (post_fireblocks_webhook w)) = 0%nat.
Proof.
  intros Hev. unfold post_fireblocks_webhook.
  rewrite (webhook_other_event w [] Hev). split; reflexivity.
Qed.

(** C4, as amended: for a TRANSACTION_CREATED request the outbound calls of
    the whole request are exactly one POST of the formatted message to the
    provider when both configuration values are in place, whatever the
    provider answers, and none when one of them is absent or empty. *)
Theorem created_event_posts_once_when_configured (w : FireblocksWebhook) :
  event w = Some TRANSACTION_CREATED ->
  filter is_post (snd (post_fireblocks_webhook w)) =
    (if configured
     then [HttpPost sendMessage_url
             (sendMessage_body (format_transaction_message w))]
     else [])
  /\ outbound_calls (snd (post_fireblocks_webhook w)) =
     (if configured then 1 else 0)%nat.
Proof.
  intros Hev. unfold outbound_calls.
  rewrite (post_created_calls w Hev), send_posts.
  by destruct configured.
Qed.

(** C7: when the notifier reports success for a TRANSACTION_CREATED request
    the caller receives 200 with the acknowledgment naming the event's id;
    and the request tx1 of the specification, served with both configuration
    values in place and a provider answering 200, receives
    [{"message": "Webhook processed successfully", "transaction_id": "tx1"}]. *)
Theorem success_is_acknowledged_with_id :
  (forall w : FireblocksWebhook,
     event w = Some TRANSACTION_CREATED ->
     fst (send_telegram_message (format_transaction_message w) []) = Ret true ->
     fst (post_fireblocks_webhook w) =
       JSONResponse 200
         [("message", PStr "Webhook processed successfully");
          ("transaction_id", PStr (id w))])
  /\ (forall r : Response,
        configured = true ->
        provider sendMessage_url
          (sendMessage_body (format_transaction_message tx1)) = Responded r ->
        status_code r = 200 ->
        fst (post_fireblocks_webhook tx1) =
          JSONResponse 200
            [("message", PStr "Webhook processed successfully");
             ("transaction_id", PStr "tx1")]).
Proof.
  assert (Hgen : forall w : FireblocksWebhook,
     event w = Some TRANSACTION_CREATED ->
     fst (send_telegram_message (format_transaction_message w) []) = Ret true ->
     fst (post_fireblocks_webhook w) =
       JSONResponse 200
         [("message", PStr "Webhook processed successfully");
          ("transaction_id", PStr (id w))]).
  { intros w Hev Hok. unfold post_fireblocks_webhook.
    rewrite (webhook_created w [] Hev). cbn zeta. by rewrite Hok. }
  split; [exact Hgen|].
  intros r Hc Hr H200. apply (Hgen tx1 eq_refl).
  rewrite (send_configured _ [] Hc). cbn zeta. rewrite Hr, H200. reflexivity.
Qed.

(** ** The formatted message *)

(** Two messages that agree up to the source slot differ when their source
    slots start differently. *)
Lemma message_layout_source_differs (tx amt asset created dst dst' : string) :
  message_layout tx amt asset created "None" dst <>
  message_layout tx amt asset created "N/A" dst'.
Proof.
  unfold message_layout. intros H.
  repeat (apply app_inv_head in H).
  rewrite !app_cons in H. discriminate.
Qed.

Lemma message_layout_destination_differs (tx amt asset created src : string) :
  message_layout tx amt asset created src "None" <>
  message_layout tx amt asset created src "N/A".
Proof.
  unfold message_layout. intros H.
  repeat (apply app_inv_head in H).
  rewrite !app_cons in H. discriminate.
Qed.

(** C6: the message is the fixed form filled with one text per field, each
    computed from its own field alone; taking [amount], [assetId],
    [createdAt], [source] or [destination] away puts "N/A" in that field's
    slot and leaves the other slots as they were, and so does a [source] or
    [destination] mapping that has no "id" key. *)
Theorem missing_fields_render_placeholder (w : FireblocksWebhook) :
  format_transaction_message w =
    message_layout (id w) (amount_slot w) (asset_slot w) (created_slot w)
      (source_slot w) (destination_slot w)
  /\ format_transaction_message (with_amount None w) =
     message_layout (id w) "N/A" (asset_slot w) (created_slot w)
       (source_slot w) (destination_slot w)
  /\ format_transaction_message (with_assetId None w) =
     message_layout (id w) (amount_slot w) "N/A" (created_slot w)
       (source_slot w) (destination_slot w)
  /\ format_transaction_message (with_createdAt None w) =
     message_layout (id w) (amount_slot w) (asset_slot w) "N/A"
       (source_slot w) (destination_slot w)
  /\ format_transaction_message (with_source None w) =
     message_layout (id w) (amount_slot w) (asset_slot w) (created_slot w)
       "N/A" (destination_slot w)
  /\ format_transaction_message (with_destination None w) =
     message_layout (id w) (amount_slot w) (asset_slot w) (created_slot w)
       (source_slot w) "N/A"
  /\ (forall m : gmap string value,
        m !! "id" = None ->
        format_transaction_message (with_source (Some m) w) =
        message_layout (id w) (amount_slot w) (asset_slot w) (created_slot w)
          "N/A" (destination_slot w))
  /\ (forall m : gmap string value,
        m !! "id" = None ->
        format_transaction_message (with_destination (Some m) w) =
        message_layout (id w) (amount_slot w) (asset_slot w) (created_slot w)
          (source_slot w) "N/A").
Proof.
  repeat split; try apply format_transaction_message_layout.
  - intros m Hm. rewrite format_transaction_message_layout.
    unfold source_slot at 1. cbn [with_source source].
    by rewrite (endpoint_text_no_id m Hm).
  - intros m Hm. rewrite format_transaction_message_layout.
    unfold destination_slot at 1. cbn [with_destination destination].
    by rewrite (endpoint_text_no_id m Hm).
Qed.

(** C9, as amended: a [source] (or [destination]) mapping whose "id" is null
    puts "None" in that slot, and the message then differs from the one of
    the event without that mapping; a slot reads "N/A" only when the mapping
    is absent, when it has no "id" key, or when the text of its "id" value is
    itself "N/A". *)
Theorem null_id_renders_None (w : FireblocksWebhook) :
  (forall m : gmap string value,
     m !! "id" = Some PNone ->
     (format_transaction_message (with_source (Some m) w) =
        message_layout (id w) (amount_slot w) (asset_slot w) (created_slot w)
          "None" (destination_slot w)
      /\ format_transaction_message (with_source (Some m) w) <>
         format_transaction_message (with_source None w))
     /\ (format_transaction_message (with_destination (Some m) w) =
           message_layout (id w) (amount_slot w) (asset_slot w) (created_slot w)
             (source_slot w) "None"
         /\ format_transaction_message (with_destination (Some m) w) <>
            format_transaction_message (with_destination None w)))
  /\ (forall d : option (gmap string value),
        endpoint_text d = "N/A" ->
        d = None
        \/ (exists m' : gmap string value, d = Some m' /\ m' !! "id" = None)
        \/ (exists (m' : gmap string value) (v : value),
              d = Some m' /\ m' !! "id" = Some v /\ str v = "N/A")).
Proof.
  split; [intros m Hm|].
  2:{ intros [m'|] Hd'; [|by left]. right.
      destruct (m' !! "id") as [v|] eqn:Hv.
      - right. exists m', v. by rewrite <- Hd', (endpoint_text_lookup m' v Hv).
      - left. by exists m'. }
  assert (Hs : format_transaction_message (with_source (Some m) w) =
     message_layout (id w) (amount_slot w) (asset_slot w) (created_slot w)
       "None" (destination_slot w)).
  { rewrite format_transaction_message_layout.
    unfold source_slot at 1. cbn [with_source source].
    by rewrite (endpoint_text_lookup m PNone Hm). }
  assert (Hd : format_transaction_message (with_destination (Some m) w) =
     message_layout (id w) (amount_slot w) (asset_slot w) (created_slot w)
       (source_slot w) "None").
  { rewrite format_transaction_message_layout.
    unfold destination_slot at 1. cbn [with_destination destination].
    by rewrite (endpoint_text_lookup m PNone Hm). }
  split; (split; [assumption|]).
  - rewrite Hs, format_transaction_message_layout.
    apply message_layout_source_differs.
  - rewrite Hd, format_transaction_message_layout.
    apply message_layout_destination_differs.
Qed.

(** C10: an [amount], [assetId] or [createdAt] that is the empty string puts
    "N/A" in its slot, and the message is the one of the event without that
    field. *)
Theorem empty_text_renders_placeholder (w : FireblocksWebhook) :
  (format_transaction_message (with_amount (Some "") w) =
     message_layout (id w) "N/A" (asset_slot w) (created_slot w)
       (source_slot w) (destination_slot w)
   /\ format_transaction_message (with_amount (Some "") w) =
      format_transaction_message (with_amount None w))
  /\ (format_transaction_message (with_assetId (Some "") w) =
        message_layout (id w) (amount_slot w) "N/A" (created_slot w)
          (source_slot w) (destination_slot w)
      /\ format_transaction_message (with_assetId (Some "") w) =
         format_transaction_message (with_assetId None w))
  /\ (format_transaction_message (with_createdAt (Some "") w) =
        message_layout (id w) (amount_slot w) (asset_slot w) "N/A"
          (source_slot w) (destination_slot w)
      /\ format_transaction_message (with_createdAt (Some "") w) =
         format_transaction_message (with_createdAt None w)).
Proof.
  rewrite !format_transaction_message_layout. repeat split.
Qed.

(** ** The whole request, path by path *)

Lemma post_fireblocks_webhook_cases (w : FireblocksWebhook) :
  post_fireblocks_webhook w =
  let received := LogInfo ("Received webhook for transaction: " +:+ id w) in
  let message := format_transaction_message w in
  let post := HttpPost sendMessage_url (sendMessage_body message) in
  let failed :=
    [LogError ("Failed to send Telegram message for transaction: " +:+ id w);
     LogError ("Error processing webhook: "
               +:+ str_exn (HTTPException 500
                              "Failed to send Telegram notification"))] in
  if bool_decide (event w = Some TRANSACTION_CREATED) then
    if configured then
      match provider sendMessage_url (sendMessage_body message) with
      | Responded r =>
          if status_code r =? 200 then
            (processed_ack w,
             [received; post; LogInfo "Telegram message sent successfully";
              LogInfo ("Successfully processed webhook for transaction: "
                       +:+ id w)])
          else
            (internal_error,
             received :: post
             :: LogError ("Failed to send Telegram message: "
                          +:+ str_int (status_code r) +:+ " - " +:+ text r)
             :: failed)
      | Faulted d =>
          (internal_error,
           received :: post
           :: LogError ("Error sending Telegram message: " +:+ d) :: failed)
      end
    else
      (internal_error,
       received
       :: LogError "Missing Telegram bot token or chat ID in environment variables"
       :: failed)
  else
    (ignored_ack w,
     [received; LogInfo ("Ignoring event type: " +:+ str_opt (event w))]).
Proof.
  cbn zeta. unfold post_fireblocks_webhook. case_bool_decide as Hev.
  - rewrite (webhook_created w [] Hev). cbn zeta.
    destruct configured eqn:Hc.
    + rewrite (send_configured _ [] Hc). cbn zeta.
      destruct (provider _ _) as [r|d]; [destruct (status_code r =? 200)|];
        reflexivity.
    + rewrite (send_unconfigured _ [] Hc). reflexivity.
  - by rewrite (webhook_other_event w [] Hev).
Qed.

Ltac by_path w :=
  rewrite (post_fireblocks_webhook_cases w); cbn zeta;
  case_bool_decide;
  [ destruct configured eqn:?;
    [ destruct (provider _ _) as [?r|?d] eqn:?;
      [ destruct (status_code _ =? 200) eqn:? | ] | ] | ];
  cbn [fst snd].

(** ** Beyond the claims: the route *)


(** X2: whatever the event, the configuration and the provider, the caller
    receives one of three answers: the "Event ignored" acknowledgment, the
    "Webhook processed successfully" acknowledgment, or status 500 with the
    one fixed internal-error detail.  No exception reaches the framework
    unhandled, and neither the provider's answer nor a transport fault's
    description is ever passed on to the caller. *)
Theorem webhook_answers_are_three (w : FireblocksWebhook) :
  fst (post_fireblocks_webhook w) = ignored_ack w
  \/ fst (post_fireblocks_webhook w) = processed_ack w
  \/ fst (post_fireblocks_webhook w) = internal_error.
Proof. by_path w; auto. Qed.

(** X3: the caller receives the "Webhook processed successfully"
    acknowledgment exactly when the event is "TRANSACTION_CREATED", both
    configuration values are set and non-empty, and the provider answers
    the one request made with status 200. *)
Theorem webhook_processed_iff (w : FireblocksWebhook) :
  fst (post_fireblocks_webhook w) = processed_ack w <->
  event w = Some TRANSACTION_CREATED
  /\ configured = true
  /\ exists r : Response,
       provider sendMessage_url
         (sendMessage_body (format_transaction_message w)) = Responded r
       /\ status_code r = 200.
Proof.
  by_path w; (split; [intros Hack|intros (Hev & Hc & r' & Hr & H200)]);
    try discriminate Hack; try discriminate Hc; try contradiction.
  - repeat split; try assumption. exists r. split; [reflexivity|].
    by apply Z.eqb_eq.
  - reflexivity.
  - injection Hr as <-. apply Z.eqb_eq in H200. congruence.
  - discriminate Hr.
Qed.

(** X4: the log tells the outcome.  Every request first logs its receipt
    with the transaction id; an error line is written exactly for the
    requests answered with status 500, and for those the last line written
    is the "Error processing webhook" line. *)
Theorem webhook_logging_discipline (w : FireblocksWebhook) :
  head (snd (post_fireblocks_webhook w)) =
    Some (LogInfo ("Received webhook for transaction: " +:+ id w))
  /\ (filter is_error_log (snd (post_fireblocks_webhook w)) = [] <->
      fst (post_fireblocks_webhook w) <> internal_error)
  /\ (fst (post_fireblocks_webhook w) = internal_error ->
      last (snd (post_fireblocks_webhook w)) =
        Some (LogError ("Error processing webhook: "
                        +:+ str_exn (HTTPException 500
                                       "Failed to send Telegram notification")))).
Proof.
  by_path w; (split; [reflexivity|split; [split|]]);
    try discriminate; try reflexivity; try (intros H'; by destruct H').
Qed.

(** ** Beyond the claims: the notifier *)

Lemma truthy_Some (o : option string) :
  truthy o = true -> exists s : string, o = Some s /\ s <> "".
Proof.
  destruct o as [s|]; [|discriminate]. cbn. intros H.
  exists s. split; [reflexivity|]. by apply bool_decide_eq_true in H.
Qed.

(** X5: the notifier never lets an exception out, a transport fault
    included, and never tries twice.  It returns a Boolean, having sent one
    request when configured and none otherwise, and having then written
    exactly one log line: an info line when it returns true, an error line
    when it returns false. *)
Theorem notifier_reports_once (message : string) (tr : trace) :
  exists (b : bool) (line : string),
    send_telegram_message message tr =
    (Ret b,
     tr ++ (if configured
            then [HttpPost sendMessage_url (sendMessage_body message)]
            else [])
        ++ [if b then LogInfo line else LogError line]).
Proof.
  destruct configured eqn:Hc.
  - rewrite (send_configured _ tr Hc). cbn zeta.
    destruct (provider _ _) as [r|d]; [destruct (status_code r =? 200)|].
    + by exists true, "Telegram message sent successfully".
    + by eexists false, _.
    + by eexists false, _.
  - rewrite (send_unconfigured _ tr Hc). by eexists false, _.
Qed.

(** X6: a request that leaves the process is well formed.  Its URL is the
    provider's sendMessage address built from the configured, non-empty bot
    token, and its body holds the configured, non-empty chat id, the message
    unchanged and the HTML parse mode; a null chat id or the text "None" in
    place of the token is never sent. *)
Theorem posted_request_carries_configuration
    (message url : string) (body : json) :
  HttpPost url body ∈ snd (send_telegram_message message []) ->
  exists token chat : string,
    os_getenv "TELEGRAM_BOT_TOKEN" = Some token /\ token <> ""
    /\ os_getenv "TELEGRAM_CHAT_ID" = Some chat /\ chat <> ""
    /\ url = "https://api.telegram.org/bot" +:+ token +:+ "/sendMessage"
    /\ body = [("chat_id", PStr chat); ("text", PStr message);
               ("parse_mode", PStr "HTML")].
Proof.
  intros Hin. destruct configured eqn:Hc.
  - assert (Hpost : HttpPost url body =
                    HttpPost sendMessage_url (sendMessage_body message)).
    { rewrite (send_configured _ [] Hc) in Hin. cbn zeta in Hin.
      destruct (provider _ _) as [r|d]; [destruct (status_code r =? 200)|];
        cbn [snd app] in Hin;
        (apply elem_of_cons in Hin as [Hin|Hin]; [exact Hin|]);
        apply list_elem_of_singleton in Hin; discriminate Hin. }
    unfold configured in Hc. apply andb_true_iff in Hc as [Ht Hi].
    apply truthy_Some in Ht as (token & Ht & Hne).
    apply truthy_Some in Hi as (chat & Hi & Hne').
    exists token, chat. injection Hpost as -> ->.
    unfold sendMessage_url, sendMessage_body. rewrite Ht, Hi.
    repeat split; assumption.
  - rewrite (send_unconfigured _ [] Hc) in Hin. cbn [snd app] in Hin.
    apply list_elem_of_singleton in Hin. discriminate Hin.
Qed.

(** X7: a failed delivery is logged with its cause.  When the provider
    answers with a status other than 200 the error line holds that status
    and the answer's body; when the request fails in transport it holds the
    fault's description. *)
Theorem notifier_logs_the_cause (message : string) (tr : trace) :
  configured = true ->
  (forall r : Response,
     provider sendMessage_url (sendMessage_body message) = Responded r ->
     status_code r <> 200 ->
     last (snd (send_telegram_message message tr)) =
       Some (LogError ("Failed to send Telegram message: "
                       +:+ str_int (status_code r) +:+ " - " +:+ text r)))
  /\ (forall d : string,
        provider sendMessage_url (sendMessage_body message) = Faulted d ->
        last (snd (send_telegram_message message tr)) =
          Some (LogError ("Error sending Telegram message: " +:+ d))).
Proof.
  intros Hc. rewrite (send_configured _ tr Hc). cbn zeta.
  split; [intros r -> Hne|intros d ->].
  - apply Z.eqb_neq in Hne. rewrite Hne. cbn [snd].
    by rewrite last_app_cons.
  - cbn [snd]. by rewrite last_app_cons.
Qed.

(** ** Beyond the claims: the message *)

Lemma rstrip_closing_tag :
  rstrip "#Fireblocks #Transaction" = "#Fireblocks #Transaction".
Proof. reflexivity. Qed.

(** X8: the message handed to the notifier is trimmed and never empty,
    whatever the fields hold, white space included: stripping it again
    changes nothing. *)
Theorem formatted_message_is_trimmed (w : FireblocksWebhook) :
  strip (format_transaction_message w) = format_transaction_message w
  /\ format_transaction_message w <> "".
Proof.
  rewrite format_transaction_message_layout.
  set (a := amount_slot w). set (b := asset_slot w). set (c := created_slot w).
  set (d := source_slot w). set (e := destination_slot w).
  unfold message_layout. split.
  - unfold strip.
    change (lstrip (replacement +:+ ?r)) with (replacement +:+ r).
    repeat (rewrite rstrip_app_keep;
            [|repeat (first [ by rewrite rstrip_closing_tag
                            | apply rstrip_app_nonempty ])]).
    by rewrite rstrip_closing_tag.
  - discriminate.
Qed.

End Service.

(** ** Empty configuration values *)

Lemma blank_value_unconfigured (environ : gmap string string) (key : string) :
  key = "TELEGRAM_BOT_TOKEN" \/ key = "TELEGRAM_CHAT_ID" ->
  truthy (environ !! key) = false ->
  configured environ = false.
Proof.
  unfold configured, os_getenv. intros [-> | ->] ->; [reflexivity|].
  apply andb_false_r.
Qed.

(** C8: a configuration value set to the empty string is treated as an
    absent one: the notifier returns false having only logged the fact, no
    request leaves the process, and the whole outcome is the one obtained
    with that variable removed from the environment. *)
Theorem empty_config_same_as_unset
    (environ : gmap string string) (provider : string -> json -> outcome)
    (http_exception_str : Z -> string -> string) (key : string) :
  key = "TELEGRAM_BOT_TOKEN" \/ key = "TELEGRAM_CHAT_ID" ->
  environ !! key = Some "" ->
  forall (message : string) (tr : trace),
    send_telegram_message environ provider http_exception_str message tr =
      (Ret false,
       tr ++ [LogError "Missing Telegram bot token or chat ID in environment variables"])
    /\ outbound_calls
         (snd (send_telegram_message environ provider http_exception_str message tr))
       = outbound_calls tr
    /\ send_telegram_message environ provider http_exception_str message tr =
       send_telegram_message (delete key environ) provider http_exception_str
         message tr.
Proof.
  intros Hkey Hblank message tr.
  assert (Hset : configured environ = false).
  { apply (blank_value_unconfigured environ key Hkey). by rewrite Hblank. }
  assert (Hunset : configured (delete key environ) = false).
  { apply (blank_value_unconfigured _ key Hkey). by rewrite lookup_delete_eq. }
  rewrite !send_unconfigured by assumption.
  repeat split. cbn [snd]. rewrite outbound_calls_app. exact (Nat.add_0_r _).
Qed.

(** ** The theorems at the sample inputs *)

Lemma send_telegram_message_true_iff_200_witness :
  fst (send_telegram_message env_ok (answers 200) status_colon_detail "hello" [])
    = Ret true
  /\ fst (send_telegram_message env_ok (answers 201) status_colon_detail "hello" [])
     = Ret false
  /\ fst (send_telegram_message env_ok unreachable status_colon_detail "hello" [])
     = Ret false.
Proof.
  split; [|split].
  - apply (proj1 (send_telegram_message_true_iff_200
                    env_ok (answers 200) status_colon_detail "hello" [] eq_refl)
             {| status_code := 200; text := "" |}).
    reflexivity.
  - apply (proj1 (send_telegram_message_true_iff_200
                    env_ok (answers 201) status_colon_detail "hello" [] eq_refl)
             {| status_code := 201; text := "" |}).
    reflexivity.
  - apply (proj2 (send_telegram_message_true_iff_200
                    env_ok unreachable status_colon_detail "hello" [] eq_refl)
             "connection refused").
    reflexivity.
Defined.

(** C1 as the specification words it fails: a 204 answer lies in the 200
    range and the notifier reports failure. *)
Lemma status_204_is_reported_as_failure :
  ~ (forall (environ : gmap string string) (provider : string -> json -> outcome)
       (http_exception_str : Z -> string -> string) (message : string)
       (r : Response),
       configured environ = true ->
       provider (sendMessage_url environ) (sendMessage_body environ message)
         = Responded r ->
       200 <= status_code r <= 299 ->
       fst (send_telegram_message environ provider http_exception_str message [])
         = Ret true).
Proof.
  intros H.
  specialize (H env_ok (answers 204) status_colon_detail "hello"
                {| status_code := 204; text := "" |} eq_refl eq_refl).
  cbn [status_code] in H. specialize (H ltac:(lia)).
  vm_compute in H. discriminate H.
Qed.

Lemma delivery_failure_is_rewrapped_witness :
  fst (post_fireblocks_webhook env_ok (answers 503) status_colon_detail tx1) =
    ErrorResponse 500
      "Internal server error: 500: Failed to send Telegram notification"
  /\ fst (post_fireblocks_webhook env_ok (answers 503) status_colon_detail tx1) <>
     ErrorResponse 500 "Failed to send Telegram notification".
Proof.
  exact (delivery_failure_is_rewrapped
           env_ok (answers 503) status_colon_detail tx1 eq_refl eq_refl).
Defined.

Lemma other_events_are_ignored_witness :
  fst (post_fireblocks_webhook env_ok (answers 200) status_colon_detail tx2) =
    JSONResponse 200
      [("message", PStr "Event ignored"); ("event", PStr "TRANSACTION_PENDING")]
  /\ fst (post_fireblocks_webhook env_ok (answers 200) status_colon_detail tx3) =
     JSONResponse 200 [("message", PStr "Event ignored"); ("event", PNone)]
  /\ outbound_calls
       (snd (post_fireblocks_webhook env_ok (answers 200) status_colon_detail tx3))
     = 0%nat.
Proof.
  assert (H2 : event tx2 <> Some TRANSACTION_CREATED) by discriminate.
  assert (H3 : event tx3 <> Some TRANSACTION_CREATED) by discriminate.
  pose proof (other_events_are_ignored
                env_ok (answers 200) status_colon_detail tx2 H2) as [E2 _].
  pose proof (other_events_are_ignored
                env_ok (answers 200) status_colon_detail tx3 H3) as [E3 C3].
  split; [by rewrite E2|split; [by rewrite E3|exact C3]].
Defined.

(** C4 as the specification words it fails: without configuration a
    TRANSACTION_CREATED request makes no outbound call at all. *)
Lemma created_event_without_config_posts_nothing :
  ~ (forall (environ : gmap string string) (provider : string -> json -> outcome)
       (http_exception_str : Z -> string -> string) (w : FireblocksWebhook),
       event w = Some TRANSACTION_CREATED ->
       outbound_calls
         (snd (post_fireblocks_webhook environ provider http_exception_str w))
       = 1%nat).
Proof.
  intros H.
  specialize (H env_unset (answers 200) status_colon_detail tx1 eq_refl).
  vm_compute in H. discriminate H.
Qed.

Lemma created_event_posts_once_when_configured_witness :
  outbound_calls
    (snd (post_fireblocks_webhook env_ok unreachable status_colon_detail tx1))
    = 1%nat
  /\ outbound_calls
       (snd (post_fireblocks_webhook env_blank_token (answers 200)
               status_colon_detail tx1))
     = 0%nat.
Proof.
  split.
  - exact (proj2 (created_event_posts_once_when_configured
                    env_ok unreachable status_colon_detail tx1 eq_refl)).
  - exact (proj2 (created_event_posts_once_when_configured
                    env_blank_token (answers 200) status_colon_detail tx1 eq_refl)).
Defined.

Lemma missing_config_fails_without_network_witness :
  send_telegram_message env_unset (answers 200) status_colon_detail "hello" [] =
    (Ret false,
     [LogError "Missing Telegram bot token or chat ID in environment variables"])
  /\ (exists detail : string,
        fst (post_fireblocks_webhook env_unset (answers 200) status_colon_detail tx1)
        = ErrorResponse 500 detail)
  /\ outbound_calls
       (snd (post_fireblocks_webhook env_unset (answers 200) status_colon_detail tx1))
     = 0%nat.
Proof.
  destruct (missing_config_fails_without_network
              env_unset (answers 200) status_colon_detail
              (or_introl eq_refl))
    as [Hsend Hpost].
  split; [exact (proj1 (Hsend "hello" []))|].
  exact (Hpost tx1 eq_refl).
Defined.

Lemma missing_fields_render_placeholder_witness :
  format_transaction_message tx5 =
    message_layout "tx5" "N/A" "N/A" "N/A" "N/A" "N/A"
  /\ format_transaction_message (with_source None tx1) =
     message_layout "tx1" "10" "BTC" "N/A" "N/A" "N/A".
Proof.
  destruct (missing_fields_render_placeholder tx5)
    as (_ & _ & _ & _ & _ & _ & Hsrc & _).
  destruct (missing_fields_render_placeholder tx1)
    as (_ & _ & _ & _ & Habs & _).
  split; [|exact Habs].
  exact (Hsrc {[ "type" := PStr "VAULT" ]} eq_refl).
Defined.

Lemma success_is_acknowledged_with_id_witness :
  fst (post_fireblocks_webhook env_ok (answers 200) status_colon_detail tx1) =
    JSONResponse 200
      [("message", PStr "Webhook processed successfully");
       ("transaction_id", PStr "tx1")]
  /\ fst (post_fireblocks_webhook env_ok (answers 200) status_colon_detail tx4) =
     JSONResponse 200
       [("message", PStr "Webhook processed successfully");
        ("transaction_id", PStr "tx4")].
Proof.
  destruct (success_is_acknowledged_with_id
              env_ok (answers 200) status_colon_detail) as [Hgen Hex].
  split.
  - exact (Hex {| status_code := 200; text := "" |} eq_refl eq_refl eq_refl).
  - exact (Hgen tx4 eq_refl eq_refl).
Defined.

Lemma empty_config_same_as_unset_witness :
  send_telegram_message env_blank_token (answers 200) status_colon_detail
    "hello" [] =
  send_telegram_message (delete "TELEGRAM_BOT_TOKEN" env_blank_token)
    (answers 200) status_colon_detail "hello" [].
Proof.
  exact (proj2 (proj2 (empty_config_same_as_unset
                         env_blank_token (answers 200) status_colon_detail
                         "TELEGRAM_BOT_TOKEN" (or_introl eq_refl) eq_refl
                         "hello" []))).
Defined.

Lemma null_id_renders_None_witness :
  format_transaction_message tx4 =
    message_layout "tx4" "N/A" "N/A" "N/A" "None" "N/A"
  /\ format_transaction_message tx4 <>
     format_transaction_message (with_source None tx4).
Proof.
  exact (proj1 (proj1 (null_id_renders_None tx4) {[ "id" := PNone ]} eq_refl)).
Defined.

(** C9 as the specification words it fails: the destination of tx4 is a
    mapping whose "id" key is present, holding the text "N/A", and its slot
    reads "N/A" as if the mapping were absent. *)
Lemma literal_NA_id_reads_like_absent :
  format_transaction_message tx4 =
    format_transaction_message (with_destination None tx4)
  /\ ~ (forall w : FireblocksWebhook,
          destination_slot w = "N/A" ->
          destination w = None
          \/ exists m : gmap string value,
               destination w = Some m /\ m !! "id" = None).
Proof.
  split; [rewrite !format_transaction_message_layout; reflexivity|].
  intros H. destruct (H tx4 eq_refl) as [H0 | (m & Hm & Hid)].
  - discriminate H0.
  - injection Hm as <-. vm_compute in Hid. discriminate Hid.
Qed.


(** ** The further properties at the sample inputs *)

Lemma posted_request_carries_configuration_witness :
  exists token chat : string,
    os_getenv env_ok "TELEGRAM_BOT_TOKEN" = Some token /\ token <> ""
    /\ os_getenv env_ok "TELEGRAM_CHAT_ID" = Some chat /\ chat <> ""
    /\ "https://api.telegram.org/bot123:abc/sendMessage" =
       "https://api.telegram.org/bot" +:+ token +:+ "/sendMessage"
    /\ [("chat_id", PStr "42"); ("text", PStr "hello");
        ("parse_mode", PStr "HTML")] =
       [("chat_id", PStr chat); ("text", PStr "hello");
        ("parse_mode", PStr "HTML")].
Proof.
  apply (posted_request_carries_configuration
           env_ok (answers 503) status_colon_detail "hello").
  vm_compute. apply list_elem_of_here.
Defined.

Lemma notifier_logs_the_cause_witness :
  last (snd (send_telegram_message env_ok (answers 503) status_colon_detail
               "hello" [])) =
    Some (LogError "Failed to send Telegram message: 503 - ")
  /\ last (snd (send_telegram_message env_ok unreachable status_colon_detail
                  "hello" [])) =
     Some (LogError "Error sending Telegram message: connection refused").
Proof.
  split.
  - apply (proj1 (notifier_logs_the_cause
                    env_ok (answers 503) status_colon_detail "hello" [] eq_refl)
             {| status_code := 503; text := "" |}); [reflexivity|cbn; lia].
  - apply (proj2 (notifier_logs_the_cause
                    env_ok unreachable status_colon_detail "hello" [] eq_refl)
             "connection refused").
    reflexivity.
Defined.
